(** * neopixel.py: the simulated strip's pixel buffer and published snapshot

    A shallow embedding of [Color] and of the class [Adafruit_NeoPixel] of
    neopixel.py, with the part of [Simulation] and [Frame] that [show]
    touches (the redraw-pending handoff).  The wx drawing code (layout,
    bitmaps, event binding) has no bearing on the buffer and is left out.

    Python integers are unbounded, so a packed colour is a [Z] and [<<],
    [>>], [|], [&] are [Z.shiftl], [Z.shiftr], [Z.lor], [Z.land] (both are
    two's complement on an unbounded integer).  A Python list is a [list],
    indexed the way CPython does it: a negative index counts from the end,
    anything outside [-len, len) raises IndexError. *)

From stdpp Require Import base numbers list option.

Local Open Scope Z_scope.

(** ** Exceptions and the method monad *)

(** The two exceptions the modelled methods can raise: IndexError from list
    indexing, AttributeError from reading an attribute that was never
    assigned ([self._sim] before [begin], [self._frame] before the viewer
    thread created it). *)
Inductive exn : Type :=
  | IndexError
  | AttributeError.

Inductive outcome (A : Type) : Type :=
  | Ok (a : A)
  | Raise (e : exn).
Arguments Ok {A} a.
Arguments Raise {A} e.

(** ** wx.Colour and the packing of a colour *)

(** [wx.Colour(r, g, b)] as [show] builds it. *)
Record Colour : Type := wx_Colour { Red : Z; Green : Z; Blue : Z }.

(** [Color(red, green, blue, white=0)], line 142. *)
Definition Color (red green blue white : Z) : Z :=
  Z.lor (Z.lor (Z.lor (Z.shiftl white 24) (Z.shiftl red 16)) (Z.shiftl green 8)) blue.

(** The element expression of the comprehension in [show], lines 169-171. *)
Definition decode (c : Z) : Colour :=
  wx_Colour (Z.land (Z.shiftr c 16) 255) (Z.land (Z.shiftr c 8) 255) (Z.land c 255).

(** ** Python list indexing *)

(** The position a list of length [len] gives to index [n], if any. *)
Definition py_index (len : nat) (n : Z) : option nat :=
  let k := if bool_decide (n < 0) then n + Z.of_nat len else n in
  if bool_decide (0 <= k < Z.of_nat len) then Some (Z.to_nat k) else None.

(** [l[n]] *)
Definition py_getitem {A : Type} (l : list A) (n : Z) : outcome A :=
  match py_index (length l) n with
  | Some k => match l !! k with Some x => Ok x | None => Raise IndexError end
  | None => Raise IndexError
  end.

(** [l[n] = x], giving the list after the in-place store. *)
Definition py_setitem {A : Type} (l : list A) (n : Z) (x : A) : outcome (list A) :=
  match py_index (length l) n with
  | Some k => Ok (<[k:=x]> l)
  | None => Raise IndexError
  end.

(** [[x] * num]: a negative [num] gives the empty list. *)
Definition py_repeat {A : Type} (x : A) (num : Z) : list A :=
  replicate (Z.to_nat num) x.

(** ** The viewer's side of the handoff *)

(** The two flags of [Frame] that [onSize], [update] and [onTimer] use. *)
Record Frame : Type := mkFrame { _need_resize : bool; _need_update : bool }.

(** [Simulation]: [_frame] is assigned by [run] only, so it is absent
    until the viewer thread has got that far. *)
Record Simulation : Type := mkSimulation {
  _initialized : bool;
  _frame : option Frame
}.

(** [Simulation.__init__], line 124. *)
Definition Simulation_init : Simulation :=
  {| _initialized := false; _frame := None |}.

(** [Frame.__init__] as far as the flags go, lines 41-42. *)
Definition Frame_init : Frame :=
  {| _need_resize := false; _need_update := false |}.

(** [Simulation.run] up to the main loop, lines 130-132. *)
Definition Simulation_run (sim : Simulation) : Simulation :=
  {| _initialized := true; _frame := Some Frame_init |}.

(** [Frame.update], line 104. *)
Definition Frame_update (f : Frame) : Frame :=
  {| _need_resize := _need_resize f; _need_update := true |}.

(** [Frame.onTimer], line 107: both pending flags are served and cleared. *)
Definition Frame_onTimer (f : Frame) : Frame :=
  let f1 := if _need_resize f
            then {| _need_resize := false; _need_update := _need_update f |}
            else f in
  if _need_update f1
  then {| _need_resize := _need_resize f1; _need_update := false |}
  else f1.

(** [Simulation.update], line 135. *)
Definition Simulation_update (sim : Simulation) : outcome Simulation :=
  if negb (_initialized sim) then Ok sim
  else match _frame sim with
       | Some f => Ok {| _initialized := _initialized sim;
                         _frame := Some (Frame_update f) |}
       | None => Raise AttributeError
       end.

(** ** The strip object *)

(** The attributes of an [Adafruit_NeoPixel] instance.  [_sim] is assigned
    by [begin] only.  [_lock] guards the two statements that touch
    [_displayed]; with one caller the lock has no observable effect and is
    not a field here. *)
Record Adafruit_NeoPixel : Type := mkStrip {
  _buffer : list Z;
  _displayed : list Colour;
  _sim : option Simulation
}.

(** A method: it returns or raises, and leaves the object in some state
    either way (what was assigned before a raise stays assigned). *)
Definition M (A : Type) : Type :=
  Adafruit_NeoPixel -> outcome A * Adafruit_NeoPixel.

Global Instance M_ret : MRet M := λ A a self, (Ok a, self).

Global Instance M_bind : MBind M := λ A B f m self,
  match m self with
  | (Ok a, self') => f a self'
  | (Raise e, self') => (Raise e, self')
  end.

(** Lifting the result of an indexing expression, which changes nothing
    when it raises. *)
Definition lift {A : Type} (o : outcome A) : M A := λ self, (o, self).

Definition get_buffer : M (list Z) := λ self, (Ok (_buffer self), self).

Definition set_buffer (b : list Z) : M unit := λ self,
  (Ok tt, {| _buffer := b; _displayed := _displayed self; _sim := _sim self |}).

Definition get_displayed : M (list Colour) := λ self, (Ok (_displayed self), self).

Definition set_displayed (d : list Colour) : M unit := λ self,
  (Ok tt, {| _buffer := _buffer self; _displayed := d; _sim := _sim self |}).

(** Reading [self._sim]. *)
Definition get_sim : M Simulation := λ self,
  match _sim self with
  | Some sim => (Ok sim, self)
  | None => (Raise AttributeError, self)
  end.

Definition set_sim (sim : Simulation) : M unit := λ self,
  (Ok tt, {| _buffer := _buffer self; _displayed := _displayed self; _sim := Some sim |}).

(** [Adafruit_NeoPixel.__init__(num)], line 148. *)
Definition __init__ (num : Z) : Adafruit_NeoPixel :=
  {| _buffer := py_repeat 0 num;
     _displayed := py_repeat (wx_Colour 0 0 0) num;
     _sim := None |}.

(** [begin], line 160.  The new thread has not run yet when [begin]
    returns; its progress is the separate step [viewer_started] below. *)
Definition begin : M unit := set_sim Simulation_init.

(** [show], line 165. *)
Definition show : M unit :=
  b ← get_buffer;
  set_displayed (decode <$> b);;
  sim ← get_sim;
  sim' ← lift (Simulation_update sim);
  set_sim sim'.

(** [setPixelColor], line 176. *)
Definition setPixelColor (n color : Z) : M unit :=
  b ← get_buffer;
  b' ← lift (py_setitem b n color);
  set_buffer b'.

(** [setPixelColorRGB], line 188.  [white] is passed explicitly; the
    Python default is 0. *)
Definition setPixelColorRGB (n red green blue white : Z) : M unit :=
  setPixelColor n (Color red green blue white).

(** [getPixels], line 204 (read only: the caller's later stores through the
    returned reference are not part of this method). *)
Definition getPixels : M (list Z) := get_buffer.

(** [numPixels], line 212. *)
Definition numPixels : M Z :=
  b ← get_buffer;
  mret (Z.of_nat (length b)).

(** [getPixelColor], line 220. *)
Definition getPixelColor (n : Z) : M Z :=
  b ← get_buffer;
  lift (py_getitem b n).

(** [getDisplayed], line 231. *)
Definition getDisplayed : M (list Colour) := get_displayed.

(** The caller's expression [strip.getDisplayed()[j]]. *)
Definition displayed_item (j : Z) : M Colour :=
  d ← getDisplayed;
  lift (py_getitem d j).

(** The object after a call, and what the call gave. *)
Definition after {A : Type} (m : M A) (self : Adafruit_NeoPixel) : Adafruit_NeoPixel :=
  snd (m self).

Definition result {A : Type} (m : M A) (self : Adafruit_NeoPixel) : outcome A :=
  fst (m self).

(** ** Calls and viewer steps, for reasoning about whole runs *)

(** What a call hands back. *)
Inductive value : Type :=
  | VNone
  | VInt (z : Z)
  | VColours (d : list Colour).

(** The caller's method calls, and the two steps the viewer thread takes on
    its own: reaching the end of [Simulation.run]'s set-up, and a timer
    tick. *)
Inductive event : Type :=
  | Begin
  | Show
  | SetPixelColor (n color : Z)
  | SetPixelColorRGB (n red green blue white : Z)
  | GetPixelColor (n : Z)
  | NumPixels
  | GetDisplayed
  | ViewerStarted
  | ViewerTick.

Definition viewer_started : M unit := λ self,
  match _sim self with
  | Some sim => set_sim (Simulation_run sim) self
  | None => (Ok tt, self)
  end.

Definition viewer_tick : M unit := λ self,
  match _sim self with
  | Some sim =>
      set_sim {| _initialized := _initialized sim;
                 _frame := Frame_onTimer <$> _frame sim |} self
  | None => (Ok tt, self)
  end.

Definition exec (e : event) : M value :=
  match e with
  | Begin => begin;; mret VNone
  | Show => show;; mret VNone
  | SetPixelColor n c => setPixelColor n c;; mret VNone
  | SetPixelColorRGB n r g b w => setPixelColorRGB n r g b w;; mret VNone
  | GetPixelColor n => c ← getPixelColor n; mret (VInt c)
  | NumPixels => k ← numPixels; mret (VInt k)
  | GetDisplayed => d ← getDisplayed; mret (VColours d)
  | ViewerStarted => viewer_started;; mret VNone
  | ViewerTick => viewer_tick;; mret VNone
  end.

(** A run keeps going after a call that raised, as a caller that catches
    the exception would; every prefix of a run is a run, so what holds
    after every run also holds where an uncaught exception stopped one. *)
Definition run (evs : list event) (self : Adafruit_NeoPixel) : Adafruit_NeoPixel :=
  foldl (λ s e, after (exec e) s) self evs.

Definition is_write (e : event) : bool :=
  match e with
  | SetPixelColor _ _ | SetPixelColorRGB _ _ _ _ _ => true
  | _ => false
  end.

Definition is_begin (e : event) : bool :=
  match e with Begin => true | _ => false end.

(** No write is pending: the snapshot is the decoded buffer. *)
Definition published (self : Adafruit_NeoPixel) : Prop :=
  _displayed self = decode <$> _buffer self.

(** ** The viewer's layout and drawing *)

(** [center] and [redraw] can also raise ZeroDivisionError, besides what a
    list lookup raises. *)
Inductive viewer_exn : Type :=
  | ZeroDivisionError
  | FromList (e : exn).

Inductive attempt (A : Type) : Type :=
  | Done (a : A)
  | Failed (e : viewer_exn).
Arguments Done {A} a.
Arguments Failed {A} e.

Global Instance attempt_ret : MRet attempt := λ A a, Done a.

Global Instance attempt_bind : MBind attempt := λ A B f m,
  match m with
  | Done a => f a
  | Failed e => Failed e
  end.

Definition of_outcome {A : Type} (o : outcome A) : attempt A :=
  match o with
  | Ok a => Done a
  | Raise e => Failed (FromList e)
  end.

(** [a / b] and [a % b] on integers (the file is Python 2: [xrange]): floor
    division and the remainder with the divisor's sign, which is what
    [Z.div] and [Z.modulo] are, except that a zero divisor raises. *)
Definition py_floordiv (a b : Z) : attempt Z :=
  if decide (b = 0) then Failed ZeroDivisionError else Done (a `div` b).

Definition py_mod (a b : Z) : attempt Z :=
  if decide (b = 0) then Failed ZeroDivisionError else Done (a `mod` b).

(** The jitter values are Python floats; the model takes the float type and
    the one operation [center] applies to them, integer plus float, as
    given. *)
Class Float (F : Type) : Type := int_add : Z -> F -> F.

(** [self._size] and [self._pad], assigned in [Frame.__init__] (lines
    30-31) and never again. *)
Definition _size : Z := 6.
Definition _pad : Z := 6.

(** The attributes of [Frame] that [center] reads besides those two. *)
Record Geometry (F : Type) : Type := mkGeometry {
  _width : Z;
  _height : Z;
  _xjitter : list F;
  _yjitter : list F
}.
Arguments mkGeometry {F} _ _ _ _.
Arguments _width {F} _.
Arguments _height {F} _.
Arguments _xjitter {F} _.
Arguments _yjitter {F} _.

(** [Frame.__init__], lines 32-35: the two jitter lists are drawn at
    random, one value per pixel, and are inputs here. *)
Definition Frame_geometry_init {F : Type} (xjitter yjitter : list F) : Geometry F :=
  {| _width := 400; _height := 200; _xjitter := xjitter; _yjitter := yjitter |}.

(** [Frame.resize], lines 79-81, given the client size. *)
Definition Frame_resize {F : Type} (width height : Z) (g : Geometry F) : Geometry F :=
  {| _width := width; _height := height;
     _xjitter := _xjitter g; _yjitter := _yjitter g |}.

(** [center], lines 57-62: the column and row of pixel [i]. *)
Definition Frame_cell (width i : Z) : attempt (Z * Z) :=
  row_size ← py_floordiv (width - _pad) (2 * _size + _pad);
  col ← py_mod i row_size;
  row ← py_floordiv i row_size;
  parity ← py_mod row 2;
  mret (if decide (parity = 1) then row_size - col - 1 else col, row).

(** [center], line 56. *)
Definition Frame_center {F : Type} `{!Float F} (g : Geometry F) (i : Z) : attempt (F * F) :=
  cell ← Frame_cell (_width g) i;
  let a := _pad + _size in
  let b := a + _size in
  jx ← of_outcome (py_getitem (_xjitter g) i);
  jy ← of_outcome (py_getitem (_yjitter g) i);
  mret (int_add (a + b * cell.1) jx, int_add (a + b * cell.2) jy).

(** The calls [redraw] makes on its device context. *)
Inductive draw_cmd (F : Type) : Type :=
  | SetBackground (c : Colour)
  | Clear
  | DrawLine (x1 y1 x2 y2 : F)
  | SetBrush (c : Colour)
  | DrawCircle (x y : F) (radius : Z).
Arguments SetBackground {F} c.
Arguments Clear {F}.
Arguments DrawLine {F} x1 y1 x2 y2.
Arguments SetBrush {F} c.
Arguments DrawCircle {F} x y radius.

(** Drawing code: it returns or raises, and what it has drawn by then
    stays drawn. *)
Definition Draw (F A : Type) : Type :=
  list (draw_cmd F) -> attempt A * list (draw_cmd F).

Global Instance Draw_ret {F : Type} : MRet (Draw F) := λ A a log, (Done a, log).

Global Instance Draw_bind {F : Type} : MBind (Draw F) := λ A B f m log,
  match m log with
  | (Done a, log') => f a log'
  | (Failed e, log') => (Failed e, log')
  end.

Definition emit {F : Type} (c : draw_cmd F) : Draw F unit := λ log,
  (Done tt, log ++ [c]).

Definition attempting {F A : Type} (a : attempt A) : Draw F A := λ log, (a, log).

(** A [for] loop over a list. *)
Fixpoint for_each {F A : Type} (l : list A) (body : A -> Draw F unit) : Draw F unit :=
  match l with
  | [] => mret tt
  | x :: l' => body x;; for_each l' body
  end.

(** [redraw], line 85, on the strip the frame was given. *)
Definition Frame_redraw {F : Type} `{!Float F}
    (g : Geometry F) (strip : Adafruit_NeoPixel) : Draw F unit :=
  pixels ← attempting (of_outcome (result getDisplayed strip));
  emit (SetBackground (wx_Colour 255 255 255));;
  emit Clear;;
  for_each (seqZ 1 (Z.of_nat (length pixels) - 1)) (λ i,
    p1 ← attempting (Frame_center g (i - 1));
    p2 ← attempting (Frame_center g i);
    emit (DrawLine p1.1 p1.2 p2.1 p2.2));;
  for_each (imap (λ i c, (Z.of_nat i, c)) pixels) (λ ic,
    emit (SetBrush ic.2);;
    p ← attempting (Frame_center g ic.1);
    emit (DrawCircle p.1 p.2 _size)).






(** Integers standing in for floats, to run the drawing code on examples. *)
Definition integer_jitter : Float Z := Z.add.

(** The redraw-pending flag as the caller's side left it, when there is a
    viewer with a frame. *)
Definition pending_update (self : Adafruit_NeoPixel) : option bool :=
  sim ← _sim self; f ← _frame sim; Some (_need_update f).

Definition is_caller (e : event) : bool :=
  match e with
  | ViewerStarted | ViewerTick => false
  | _ => true
  end.


(** Where [_initialized] is set, [_frame] has been assigned. *)
Definition viewer_consistent (self : Adafruit_NeoPixel) : Prop :=
  ∀ sim, _sim self = Some sim -> _initialized sim = true -> is_Some (_frame sim).


(** [begin] was called and the viewer thread has not yet set
    [_initialized]. *)
Definition viewer_starting (self : Adafruit_NeoPixel) : Prop :=
  ∃ sim, _sim self = Some sim ∧ _initialized sim = false.

Definition caller_after_begin (e : event) : bool :=
  is_caller e && negb (is_begin e).

(** A channel value that fits its eight bits. *)
Definition is_byte (x : Z) : Prop := 0 <= x <= 255.

Definition byte_colour (c : Colour) : Prop :=
  is_byte (Red c) ∧ is_byte (Green c) ∧ is_byte (Blue c).

(** * Properties *)

(** ** Packing and decoding *)

Section Channels.
Variables r g b w : Z.
Hypothesis Hr : 0 <= r <= 255.
Hypothesis Hg : 0 <= g <= 255.
Hypothesis Hb : 0 <= b <= 255.
Hypothesis Hw : 0 <= w <= 255.

Lemma channel_high_bits (x k : Z) : 0 <= x <= 255 -> 8 <= k -> Z.testbit x k = false.
Proof.
  intros Hx Hk.
  destruct (decide (x = 0)) as [->|Hne]; [apply Z.bits_0|].
  apply Z.bits_above_log2; [lia|].
  assert (Z.log2 x < 8); [|lia].
  apply Z.log2_lt_pow2; lia.
Qed.

Lemma byte_mask_bit (x k : Z) : 0 <= k ->
  Z.testbit (Z.land x 255) k = Z.testbit x k && bool_decide (k < 8).
Proof.
  intros Hk. rewrite Z.land_spec. f_equal.
  change 255 with (Z.ones 8).
  case_bool_decide.
  - apply Z.ones_spec_low; lia.
  - apply Z.ones_spec_high; lia.
Qed.

Lemma Color_bit (k : Z) : 0 <= k ->
  Z.testbit (Color r g b w) k =
    Z.testbit w (k - 24) || Z.testbit r (k - 16) || Z.testbit g (k - 8) || Z.testbit b k.
Proof.
  intros Hk. unfold Color.
  rewrite !Z.lor_spec, !Z.shiftl_spec by lia. reflexivity.
Qed.

Lemma decode_red : Z.land (Z.shiftr (Color r g b w) 16) 255 = r.
Proof.
  apply Z.bits_inj'; intros k Hk.
  rewrite byte_mask_bit, Z.shiftr_spec, Color_bit by lia.
  replace (k + 16 - 16) with k by lia.
  case_bool_decide.
  - rewrite (Z.testbit_neg_r w) by lia.
    rewrite (channel_high_bits g), (channel_high_bits b) by lia.
    simpl. by rewrite ?orb_false_r, ?andb_true_r.
  - rewrite andb_false_r. symmetry. apply channel_high_bits; lia.
Qed.

Lemma decode_green : Z.land (Z.shiftr (Color r g b w) 8) 255 = g.
Proof.
  apply Z.bits_inj'; intros k Hk.
  rewrite byte_mask_bit, Z.shiftr_spec, Color_bit by lia.
  replace (k + 8 - 8) with k by lia.
  case_bool_decide.
  - rewrite (Z.testbit_neg_r w), (Z.testbit_neg_r r) by lia.
    rewrite (channel_high_bits b) by lia.
    simpl. by rewrite ?orb_false_r, ?andb_true_r.
  - rewrite andb_false_r. symmetry. apply channel_high_bits; lia.
Qed.

Lemma decode_blue : Z.land (Color r g b w) 255 = b.
Proof.
  apply Z.bits_inj'; intros k Hk.
  rewrite byte_mask_bit, Color_bit by lia.
  case_bool_decide.
  - rewrite (Z.testbit_neg_r w), (Z.testbit_neg_r r), (Z.testbit_neg_r g) by lia.
    simpl. by rewrite ?orb_false_r, ?andb_true_r.
  - rewrite andb_false_r. symmetry. apply channel_high_bits; lia.
Qed.

Lemma decode_Color : decode (Color r g b w) = wx_Colour r g b.
Proof. unfold decode. by rewrite decode_red, decode_green, decode_blue. Qed.
End Channels.

(** ** Indexing *)

Lemma py_index_nonneg (len : nat) (n : Z) :
  0 <= n < Z.of_nat len -> py_index len n = Some (Z.to_nat n).
Proof.
  intros Hn. unfold py_index.
  repeat case_bool_decide; (done || lia).
Qed.

Lemma py_index_neg (len : nat) (n : Z) :
  - Z.of_nat len <= n < 0 -> py_index len n = Some (Z.to_nat (Z.of_nat len + n)).
Proof.
  intros Hn. unfold py_index.
  repeat case_bool_decide; try lia.
  do 2 f_equal. lia.
Qed.

Lemma py_index_out (len : nat) (n : Z) :
  n < - Z.of_nat len ∨ Z.of_nat len <= n -> py_index len n = None.
Proof.
  intros Hn. unfold py_index.
  repeat case_bool_decide; (done || lia).
Qed.

Lemma py_index_lt (len : nat) (n : Z) (k : nat) :
  py_index len n = Some k -> (k < len)%nat.
Proof.
  unfold py_index. intros H.
  case_bool_decide as Hk; [|done].
  inversion H; subst. lia.
Qed.

Lemma py_getitem_nonneg {A : Type} (l : list A) (n : Z) :
  0 <= n < Z.of_nat (length l) ->
  py_getitem l n = match l !! Z.to_nat n with Some x => Ok x | None => Raise IndexError end.
Proof. intros Hn. unfold py_getitem. by rewrite py_index_nonneg. Qed.

Lemma py_getitem_only_IndexError {A : Type} (l : list A) (n : Z) (e : exn) :
  py_getitem l n = Raise e -> e = IndexError.
Proof.
  unfold py_getitem.
  destruct (py_index _ _); [destruct (l !! _)|]; congruence.
Qed.

(** ** The methods, unfolded *)

Ltac unfold_method :=
  unfold after, result, exec, show, setPixelColorRGB, setPixelColor,
    getPixelColor, numPixels, getDisplayed, getPixels, begin,
    viewer_started, viewer_tick,
    get_buffer, set_buffer, get_displayed, set_displayed, get_sim, set_sim, lift,
    mbind, M_bind, mret, M_ret;
  simpl.

Lemma setPixelColor_eq (n c : Z) (self : Adafruit_NeoPixel) :
  setPixelColor n c self =
    match py_index (length (_buffer self)) n with
    | Some k => (Ok tt, {| _buffer := <[k:=c]> (_buffer self);
                           _displayed := _displayed self;
                           _sim := _sim self |})
    | None => (Raise IndexError, self)
    end.
Proof. unfold_method. unfold py_setitem. by destruct (py_index _ _). Qed.

Lemma getPixelColor_eq (n : Z) (self : Adafruit_NeoPixel) :
  getPixelColor n self = (py_getitem (_buffer self) n, self).
Proof. by unfold_method. Qed.

Lemma show_displayed (self : Adafruit_NeoPixel) :
  _displayed (after show self) = decode <$> _buffer self.
Proof.
  unfold_method. destruct (_sim self) as [sim|]; [|done].
  by destruct (Simulation_update sim).
Qed.

Lemma show_buffer (self : Adafruit_NeoPixel) :
  _buffer (after show self) = _buffer self.
Proof.
  unfold_method. destruct (_sim self) as [sim|]; [|done].
  by destruct (Simulation_update sim).
Qed.

Lemma show_without_sim (self : Adafruit_NeoPixel) :
  _sim self = None ->
  show self = (Raise AttributeError,
               {| _buffer := _buffer self;
                  _displayed := decode <$> _buffer self;
                  _sim := None |}).
Proof. intros H. unfold_method. by rewrite H. Qed.

Lemma getDisplayed_result (self : Adafruit_NeoPixel) :
  result getDisplayed self = Ok (_displayed self).
Proof. done. Qed.

Lemma displayed_item_result (j : Z) (self : Adafruit_NeoPixel) :
  result (displayed_item j) self = py_getitem (_displayed self) j.
Proof. done. Qed.

Lemma numPixels_result (self : Adafruit_NeoPixel) :
  result numPixels self = Ok (Z.of_nat (length (_buffer self))).
Proof. done. Qed.

Lemma setPixelColor_displayed (n c : Z) (self : Adafruit_NeoPixel) :
  _displayed (after (setPixelColor n c) self) = _displayed self.
Proof.
  unfold after. rewrite setPixelColor_eq. by destruct (py_index _ _).
Qed.

Lemma setPixelColor_buffer_valid (n c : Z) (self : Adafruit_NeoPixel) :
  0 <= n < Z.of_nat (length (_buffer self)) ->
  _buffer (after (setPixelColor n c) self) = <[Z.to_nat n:=c]> (_buffer self).
Proof.
  intros Hn. unfold after. rewrite setPixelColor_eq. by rewrite py_index_nonneg.
Qed.

(** ** What every step preserves *)

Ltac step_cases :=
  unfold_method; unfold py_setitem, py_getitem;
  repeat (case_match; simplify_eq/=).

Lemma exec_buffer_length (e : event) (self : Adafruit_NeoPixel) :
  length (_buffer (after (exec e) self)) = length (_buffer self).
Proof. destruct e; step_cases; by rewrite ?length_insert. Qed.

Lemma exec_displayed_length (e : event) (self : Adafruit_NeoPixel) :
  length (_displayed self) = length (_buffer self) ->
  length (_displayed (after (exec e) self)) = length (_buffer (after (exec e) self)).
Proof.
  intros Hinv. destruct e; step_cases; by rewrite ?length_insert, ?length_fmap.
Qed.

Lemma exec_write_displayed (e : event) (self : Adafruit_NeoPixel) :
  is_write e = true -> _displayed (after (exec e) self) = _displayed self.
Proof. destruct e; try done; intros _; by step_cases. Qed.

Lemma exec_keeps_sim_absent (e : event) (self : Adafruit_NeoPixel) :
  is_begin e = false -> _sim self = None -> _sim (after (exec e) self) = None.
Proof. intros He Hs. destruct e; try done; by step_cases. Qed.

Lemma run_snoc (evs : list event) (e : event) (self : Adafruit_NeoPixel) :
  run (evs ++ [e]) self = after (exec e) (run evs self).
Proof. unfold run. by rewrite foldl_app. Qed.

Lemma run_buffer_length (evs : list event) (self : Adafruit_NeoPixel) :
  length (_buffer (run evs self)) = length (_buffer self).
Proof.
  induction evs as [|e evs IH] using rev_ind; [done|].
  by rewrite run_snoc, exec_buffer_length.
Qed.

Lemma run_displayed_length (evs : list event) (self : Adafruit_NeoPixel) :
  length (_displayed self) = length (_buffer self) ->
  length (_displayed (run evs self)) = length (_buffer (run evs self)).
Proof.
  intros Hinv. induction evs as [|e evs IH] using rev_ind; [done|].
  rewrite run_snoc. by apply exec_displayed_length.
Qed.

Lemma run_writes_displayed (evs : list event) (self : Adafruit_NeoPixel) :
  forallb is_write evs = true -> _displayed (run evs self) = _displayed self.
Proof.
  revert self. induction evs as [|e evs IH]; intros self Hw; [done|].
  simpl in Hw. apply andb_prop in Hw as [He Hw].
  unfold run. simpl. fold (run evs (after (exec e) self)).
  rewrite IH by done. by apply exec_write_displayed.
Qed.

Lemma run_keeps_sim_absent (evs : list event) (self : Adafruit_NeoPixel) :
  forallb (λ e, negb (is_begin e)) evs = true ->
  _sim self = None -> _sim (run evs self) = None.
Proof.
  revert self. induction evs as [|e evs IH]; intros self Hw Hs; [done|].
  simpl in Hw. apply andb_prop in Hw as [He Hw].
  unfold run. simpl. fold (run evs (after (exec e) self)).
  apply IH; [done|]. apply exec_keeps_sim_absent; [|done].
  by destruct (is_begin e).
Qed.

Lemma init_buffer_length (num : Z) :
  0 <= num -> Z.of_nat (length (_buffer (__init__ num))) = num.
Proof. intros Hn. simpl. unfold py_repeat. rewrite length_replicate. lia. Qed.

Lemma init_published (num : Z) : published (__init__ num).
Proof. unfold published, __init__, py_repeat. simpl. by rewrite fmap_replicate. Qed.

Lemma show_published (self : Adafruit_NeoPixel) : published (after show self).
Proof. unfold published. by rewrite show_displayed, show_buffer. Qed.

(** ** A write followed by [show] *)

Lemma written_then_shown (n c : Z) (self : Adafruit_NeoPixel) :
  0 <= n < Z.of_nat (length (_buffer self)) ->
  py_getitem (_displayed (after show (after (setPixelColor n c) self))) n
    = Ok (decode c).
Proof.
  intros Hn. rewrite show_displayed, setPixelColor_buffer_valid by done.
  rewrite py_getitem_nonneg by (rewrite length_fmap, length_insert; lia).
  rewrite list_lookup_fmap, list_lookup_insert_eq by lia. done.
Qed.

Lemma written_then_shown_other (n c j : Z) (self : Adafruit_NeoPixel) :
  0 <= n < Z.of_nat (length (_buffer self)) ->
  0 <= j < Z.of_nat (length (_buffer self)) ->
  j ≠ n ->
  ∃ x, py_getitem (_buffer self) j = Ok x
       ∧ py_getitem (_displayed (after show (after (setPixelColor n c) self))) j
           = Ok (decode x).
Proof.
  intros Hn Hj Hne.
  destruct (lookup_lt_is_Some_2 (_buffer self) (Z.to_nat j)) as [x Hx]; [lia|].
  exists x. split.
  - rewrite py_getitem_nonneg by done. by rewrite Hx.
  - rewrite show_displayed, setPixelColor_buffer_valid by done.
    rewrite py_getitem_nonneg by (rewrite length_fmap, length_insert; lia).
    rewrite list_lookup_fmap, list_lookup_insert_ne by lia. by rewrite Hx.
Qed.

(** ** Writes and the snapshot *)

(** C1: for every state of the strip and every valid index [n],
    [setPixelColor(n, c)] and [setPixelColorRGB(n, r, g, b, w)] return
    normally and leave what [getDisplayed()] returns unchanged, and so does
    any sequence of such writes; the write shows in [getDisplayed()] once a
    following [show()] has run. *)
Theorem writes_invisible_until_show (self : Adafruit_NeoPixel) (n c r g b w : Z) :
  0 <= n < Z.of_nat (length (_buffer self)) ->
  (result (setPixelColor n c) self = Ok tt
   ∧ result getDisplayed (after (setPixelColor n c) self) = result getDisplayed self)
  ∧ (result (setPixelColorRGB n r g b w) self = Ok tt
     ∧ result getDisplayed (after (setPixelColorRGB n r g b w) self)
         = result getDisplayed self)
  ∧ (∀ evs, forallb is_write evs = true ->
            result getDisplayed (run evs self) = result getDisplayed self)
  ∧ result (displayed_item n) (after show (after (setPixelColor n c) self))
      = Ok (decode c)
  ∧ result (displayed_item n) (after show (after (setPixelColorRGB n r g b w) self))
      = Ok (decode (Color r g b w)).
Proof.
  intros Hn.
  assert (Hok : ∀ c', result (setPixelColor n c') self = Ok tt).
  { intros c'. unfold result. rewrite setPixelColor_eq.
    by rewrite py_index_nonneg. }
  rewrite !getDisplayed_result. unfold setPixelColorRGB.
  repeat split.
  - apply Hok.
  - by rewrite setPixelColor_displayed.
  - apply Hok.
  - by rewrite setPixelColor_displayed.
  - intros evs Hw. rewrite getDisplayed_result. by rewrite run_writes_displayed.
  - rewrite displayed_item_result. by apply written_then_shown.
  - rewrite displayed_item_result. by apply written_then_shown.
Qed.

Lemma writes_invisible_until_show_witness :
  0 <= 1 < Z.of_nat (length (_buffer (__init__ 3)))
  ∧ result getDisplayed (after (setPixelColor 1 16711680) (__init__ 3))
      = result getDisplayed (__init__ 3).
Proof.
  assert (H : 0 <= 1 < Z.of_nat (length (_buffer (__init__ 3)))) by (simpl; lia).
  split; [exact H|].
  exact (proj2 (proj1 (writes_invisible_until_show (__init__ 3) 1 16711680 0 0 0 0 H))).
Defined.

(** C2: for channel values [r], [g], [b], [w] in [0, 255] the decoding that
    [show()] applies to [Color(r, g, b, w)] is the triple [(r, g, b)], the
    white channel being dropped; and for every valid index [i],
    [setPixelColor(i, Color(r, g, b, w))] followed by [show()] makes
    [getDisplayed()[i]] the colour [(r, g, b)]. *)
Theorem decode_Color_roundtrip (self : Adafruit_NeoPixel) (i r g b w : Z) :
  0 <= r <= 255 -> 0 <= g <= 255 -> 0 <= b <= 255 -> 0 <= w <= 255 ->
  0 <= i < Z.of_nat (length (_buffer self)) ->
  decode (Color r g b w) = wx_Colour r g b
  ∧ decode (Color r g b w) = decode (Color r g b 0)
  ∧ result (displayed_item i) (after show (after (setPixelColor i (Color r g b w)) self))
      = Ok (wx_Colour r g b).
Proof.
  intros Hr Hg Hb Hw Hi.
  split; [by apply decode_Color|].
  split; [by rewrite !decode_Color by lia|].
  rewrite displayed_item_result, written_then_shown by done.
  f_equal. by apply decode_Color.
Qed.

Lemma decode_Color_roundtrip_witness :
  decode (Color 10 20 30 40) = wx_Colour 10 20 30.
Proof.
  refine (proj1 (decode_Color_roundtrip (__init__ 2) 1 10 20 30 40 _ _ _ _ _));
    simpl; lia.
Defined.

(** C5: [show()] is idempotent on an unchanged buffer: in every state, a
    second [show()] right after a first leaves [getDisplayed()] returning
    the same snapshot. *)
Theorem show_idempotent (self : Adafruit_NeoPixel) :
  result getDisplayed (after show (after show self))
    = result getDisplayed (after show self).
Proof. by rewrite !getDisplayed_result, !show_displayed, show_buffer. Qed.

(** ** Indices out of range, and negative indices *)

(** With three pixels, index -1 is outside [0, 3) and yet all three
    indexed methods return normally. *)
Lemma negative_index_accepted :
  ¬ (0 <= -1 < 3)
  ∧ result numPixels (__init__ 3) = Ok 3
  ∧ result (getPixelColor (-1)) (__init__ 3) = Ok 0
  ∧ result (setPixelColor (-1) 255) (__init__ 3) = Ok tt
  ∧ result (setPixelColorRGB (-1) 1 2 3 0) (__init__ 3) = Ok tt
  ∧ result (getPixelColor (-1)) (__init__ 3) ≠ Raise IndexError
  ∧ result (setPixelColor (-1) 255) (__init__ 3) ≠ Raise IndexError
  ∧ result (setPixelColorRGB (-1) 1 2 3 0) (__init__ 3) ≠ Raise IndexError.
Proof. repeat split; (done || lia). Qed.

(** C3, amended: for every state of a strip of [count] pixels and every
    index [i] with [i < -count] or [count <= i], each of
    [setPixelColor(i, c)], [getPixelColor(i)] and
    [setPixelColorRGB(i, r, g, b, w)] raises IndexError and leaves the strip
    as it was; and at any index at all, IndexError is the only exception
    these three raise. *)
Theorem out_of_range_IndexError (self : Adafruit_NeoPixel) (i c r g b w : Z) :
  i < - Z.of_nat (length (_buffer self)) ∨ Z.of_nat (length (_buffer self)) <= i ->
  setPixelColor i c self = (Raise IndexError, self)
  ∧ getPixelColor i self = (Raise IndexError, self)
  ∧ setPixelColorRGB i r g b w self = (Raise IndexError, self)
  ∧ (∀ k e, result (setPixelColor k c) self = Raise e
            ∨ result (getPixelColor k) self = Raise e
            ∨ result (setPixelColorRGB k r g b w) self = Raise e ->
            e = IndexError).
Proof.
  intros Hi. unfold setPixelColorRGB.
  rewrite !setPixelColor_eq, getPixelColor_eq. unfold py_getitem.
  rewrite py_index_out by done. repeat split.
  intros k e. unfold result.
  rewrite !setPixelColor_eq, getPixelColor_eq.
  intros [H|[H|H]]; simpl in H.
  - destruct (py_index _ k); simpl in H; congruence.
  - by apply py_getitem_only_IndexError in H.
  - destruct (py_index _ k); simpl in H; congruence.
Qed.

Lemma out_of_range_IndexError_witness :
  result (getPixelColor 3) (__init__ 3) = Raise IndexError
  ∧ result (setPixelColor (-4) 255) (__init__ 3) = Raise IndexError.
Proof.
  split.
  - refine (f_equal fst (proj1 (proj2
      (out_of_range_IndexError (__init__ 3) 3 0 0 0 0 0 _)))).
    right. simpl. lia.
  - refine (f_equal fst (proj1
      (out_of_range_IndexError (__init__ 3) (-4) 255 0 0 0 0 _))).
    left. simpl. lia.
Defined.

(** C8: for every state of a strip of [N] pixels and every [n] with
    [-N <= n < 0], [getPixelColor(n)] returns what [getPixelColor(N + n)]
    returns, and [setPixelColor(n, c)] returns normally and does exactly
    what [setPixelColor(N + n, c)] does: pixel [N + n] then reads [c] and
    every other pixel reads as before. *)
Theorem negative_index_aliases (self : Adafruit_NeoPixel) (n c : Z) :
  let N := Z.of_nat (length (_buffer self)) in
  - N <= n < 0 ->
  (∃ v, result (getPixelColor n) self = Ok v
        ∧ result (getPixelColor (N + n)) self = Ok v)
  ∧ result (setPixelColor n c) self = Ok tt
  ∧ setPixelColor n c self = setPixelColor (N + n) c self
  ∧ result (getPixelColor (N + n)) (after (setPixelColor n c) self) = Ok c
  ∧ (∀ k, 0 <= k < N -> k ≠ N + n ->
          result (getPixelColor k) (after (setPixelColor n c) self)
            = result (getPixelColor k) self).
Proof.
  intros N Hn. subst N.
  set (len := length (_buffer self)) in *.
  assert (Hneg : py_index len n = Some (Z.to_nat (Z.of_nat len + n)))
    by (by apply py_index_neg).
  assert (Hpos : py_index len (Z.of_nat len + n) = Some (Z.to_nat (Z.of_nat len + n)))
    by (apply py_index_nonneg; lia).
  destruct (lookup_lt_is_Some_2 (_buffer self) (Z.to_nat (Z.of_nat len + n)))
    as [v Hv]; [fold len; lia|].
  unfold result, after. rewrite !setPixelColor_eq. fold len.
  rewrite Hneg, Hpos. setoid_rewrite getPixelColor_eq. unfold py_getitem. simpl.
  rewrite length_insert. fold len. rewrite Hneg, Hpos.
  split; [|split; [done|split; [done|split]]].
  - exists v. by rewrite Hv.
  - by rewrite list_lookup_insert_eq by (fold len; lia).
  - intros k Hk Hne. rewrite py_index_nonneg by done.
    by rewrite list_lookup_insert_ne by lia.
Qed.

Lemma negative_index_aliases_witness :
  result (getPixelColor 2) (after (setPixelColor (-1) 255) (__init__ 3)) = Ok 255.
Proof.
  refine (proj1 (proj2 (proj2 (proj2
    (negative_index_aliases (__init__ 3) (-1) 255 _))))).
  simpl. lia.
Defined.

(** ** One pixel written, then published *)

(** A write to pixel 1 is pending when pixel 0 is written and [show()] is
    called: entry 1 of the snapshot changes from black to the pending
    colour. *)
Lemma pending_write_changes_other_entry :
  let before := after (setPixelColorRGB 1 1 2 3 0) (__init__ 2) in
  let later := after show (after (setPixelColorRGB 0 10 20 30 0) before) in
  result (displayed_item 1) before = Ok (wx_Colour 0 0 0)
  ∧ result (displayed_item 1) later = Ok (wx_Colour 1 2 3)
  ∧ result (displayed_item 1) later ≠ result (displayed_item 1) before.
Proof. repeat split; done. Qed.

(** C4, amended: for every valid index [i], after
    [setPixelColorRGB(i, 10, 20, 30)] followed by [show()],
    [getDisplayed()[i]] is [(10, 20, 30)], and for every valid [j ≠ i],
    [getDisplayed()[j]] is the decoding of buffer pixel [j] as it was before
    the call; it is unchanged from its value before the call when no write
    was pending then (the snapshot was the decoded buffer, as it is right
    after construction and after every [show()]). *)
Theorem setPixelColorRGB_then_show (self : Adafruit_NeoPixel) (i j : Z) :
  0 <= i < Z.of_nat (length (_buffer self)) ->
  0 <= j < Z.of_nat (length (_buffer self)) ->
  j ≠ i ->
  let later := after show (after (setPixelColorRGB i 10 20 30 0) self) in
  result (displayed_item i) later = Ok (wx_Colour 10 20 30)
  ∧ (∃ x, result (getPixelColor j) self = Ok x
          ∧ result (displayed_item j) later = Ok (decode x))
  ∧ (published self ->
     result (displayed_item j) later = result (displayed_item j) self).
Proof.
  intros Hi Hj Hne later. subst later. unfold setPixelColorRGB.
  rewrite !displayed_item_result.
  destruct (written_then_shown_other i (Color 10 20 30 0) j self Hi Hj Hne)
    as (x & Hx & Hd).
  split; [by apply written_then_shown|]. split.
  - exists x. unfold result. by rewrite getPixelColor_eq.
  - intros Hpub. rewrite Hd, Hpub.
    rewrite py_getitem_nonneg in Hx by done.
    rewrite py_getitem_nonneg by (by rewrite length_fmap).
    rewrite list_lookup_fmap.
    destruct (_buffer self !! Z.to_nat j); by simplify_eq/=.
Qed.

Lemma setPixelColorRGB_then_show_witness :
  result (displayed_item 1)
    (after show (after (setPixelColorRGB 1 10 20 30 0) (after show (__init__ 3))))
    = Ok (wx_Colour 10 20 30).
Proof.
  refine (proj1 (setPixelColorRGB_then_show (after show (__init__ 3)) 1 2 _ _ _));
    simpl; lia.
Defined.

(** ** Construction and what a run keeps *)

(** C6: right after construction with pixel count [N], [numPixels()]
    returns [N], [getPixelColor(i)] returns 0 for every [i] in [0, N), and
    [getDisplayed()] returns exactly [N] entries, all black. *)
Theorem init_state (N : Z) :
  0 <= N ->
  result numPixels (__init__ N) = Ok N
  ∧ (∀ i, 0 <= i < N -> result (getPixelColor i) (__init__ N) = Ok 0)
  ∧ ∃ d, result getDisplayed (__init__ N) = Ok d
         ∧ Z.of_nat (length d) = N
         ∧ Forall (λ c, c = wx_Colour 0 0 0) d.
Proof.
  intros HN. split; [|split].
  - rewrite numPixels_result. by rewrite init_buffer_length.
  - intros i Hi. unfold result. rewrite getPixelColor_eq. simpl.
    rewrite py_getitem_nonneg
      by (unfold py_repeat; rewrite length_replicate; lia).
    unfold py_repeat. by rewrite lookup_replicate_2 by lia.
  - exists (py_repeat (wx_Colour 0 0 0) N). split; [done|].
    unfold py_repeat. split; [rewrite length_replicate; lia|].
    apply Forall_replicate. done.
Qed.

Lemma init_state_witness : result numPixels (__init__ 5) = Ok 5.
Proof. refine (proj1 (init_state 5 _)). lia. Defined.

(** A negative [num] is accepted by the constructor and gives an empty
    strip, so the count read back is 0 there. *)
Lemma init_negative : result numPixels (__init__ (-3)) = Ok 0.
Proof. done. Qed.

Lemma run_numPixels (evs : list event) (self : Adafruit_NeoPixel) :
  result numPixels (run evs self) = result numPixels self.
Proof. by rewrite !numPixels_result, run_buffer_length. Qed.

(** C7: the pixel count is fixed: after construction with count [N] and
    any sequence of [setPixelColor], [setPixelColorRGB], [getPixelColor],
    [show] and [getDisplayed] calls (and of [begin] and [numPixels] calls
    and viewer steps besides), [numPixels()] still returns [N]. *)
Theorem numPixels_fixed (N : Z) (evs : list event) :
  0 <= N -> result numPixels (run evs (__init__ N)) = Ok N.
Proof.
  intros HN. rewrite run_numPixels, numPixels_result.
  by rewrite init_buffer_length.
Qed.

Lemma numPixels_fixed_witness :
  result numPixels
    (run [SetPixelColor 0 255; Show; SetPixelColorRGB 7 1 2 3 0;
          GetPixelColor (-1); GetDisplayed; Show] (__init__ 4)) = Ok 4.
Proof. apply numPixels_fixed. lia. Defined.

(** C10: the sequence [getDisplayed()] returns always has [numPixels()]
    entries: after construction with any [num] and any sequence of calls
    and viewer steps, its length is the pixel count. *)
Theorem displayed_length_is_numPixels (num : Z) (evs : list event) :
  ∃ d, result getDisplayed (run evs (__init__ num)) = Ok d
       ∧ result numPixels (run evs (__init__ num)) = Ok (Z.of_nat (length d)).
Proof.
  eexists. split; [apply getDisplayed_result|].
  rewrite numPixels_result. do 2 f_equal. symmetry.
  apply run_displayed_length. unfold __init__, py_repeat. simpl.
  by rewrite !length_replicate.
Qed.

(** ** [show] before [begin] *)

(** C9: in a run from construction in which [begin()] was never called,
    [show()] raises (there is no [_sim] attribute), and yet the snapshot
    has been replaced by then: [getDisplayed()] afterwards returns the
    decoding of the buffer as it stands, and the buffer is untouched. *)
Theorem show_before_begin (num : Z) (evs : list event) :
  forallb (λ e, negb (is_begin e)) evs = true ->
  let self := run evs (__init__ num) in
  result show self = Raise AttributeError
  ∧ result getDisplayed (after show self) = Ok (decode <$> _buffer self)
  ∧ result getPixels (after show self) = result getPixels self.
Proof.
  intros Hnb self.
  assert (Hs : _sim self = None) by (by apply run_keeps_sim_absent).
  unfold result, after. rewrite show_without_sim by done. done.
Qed.

Lemma show_before_begin_witness :
  let self := run [SetPixelColor 0 255] (__init__ 1) in
  result show self = Raise AttributeError
  ∧ result getDisplayed self = Ok [wx_Colour 0 0 0]
  ∧ result getDisplayed (after show self) = Ok [wx_Colour 0 0 255].
Proof.
  intros self.
  destruct (show_before_begin 1 [SetPixelColor 0 255] eq_refl) as (Hr & Hd & _).
  split; [exact Hr|]. split; [reflexivity|exact Hd].
Defined.

(** * Further properties of the code *)

(** ** The packed colour as a number *)

Lemma lor_disjoint_add (hi lo k : Z) :
  0 <= k -> 0 <= lo < 2 ^ k -> Z.lor (hi * 2 ^ k) lo = hi * 2 ^ k + lo.
Proof.
  intros Hk Hlo.
  assert (Hdis : Z.land (hi * 2 ^ k) lo = 0).
  { apply Z.bits_inj'; intros m Hm. rewrite Z.land_spec, Z.bits_0.
    destruct (decide (m < k)).
    - by rewrite Z.mul_pow2_bits_low by lia.
    - destruct (decide (lo = 0)) as [->|Hne]; [by rewrite Z.bits_0, andb_false_r|].
      rewrite (Z.bits_above_log2 lo m), andb_false_r; [done|lia|].
      assert (Z.log2 lo < k); [apply Z.log2_lt_pow2; lia|lia]. }
  rewrite Z.add_nocarry_lxor by done. symmetry. by apply Z.lxor_lor.
Qed.

Lemma Color_as_sum (r g b w : Z) :
  is_byte r -> is_byte g -> is_byte b ->
  Color r g b w = w * 2 ^ 24 + r * 2 ^ 16 + g * 2 ^ 8 + b.
Proof.
  unfold is_byte, Color. intros Hr Hg Hb.
  rewrite !Z.shiftl_mul_pow2 by lia.
  rewrite (lor_disjoint_add w (r * 2 ^ 16) 24) by lia.
  replace (w * 2 ^ 24 + r * 2 ^ 16) with ((w * 2 ^ 8 + r) * 2 ^ 16) by lia.
  rewrite (lor_disjoint_add _ (g * 2 ^ 8) 16) by lia.
  replace ((w * 2 ^ 8 + r) * 2 ^ 16 + g * 2 ^ 8)
    with ((w * 2 ^ 16 + r * 2 ^ 8 + g) * 2 ^ 8) by lia.
  rewrite (lor_disjoint_add _ b 8) by lia. lia.
Qed.

(** X1: with the four channels in [0, 255], [Color] is the base-256 number
    with digits white, red, green, blue, and fits 32 bits. *)
Theorem Color_is_base_256 (r g b w : Z) :
  is_byte r -> is_byte g -> is_byte b -> is_byte w ->
  Color r g b w = w * 2 ^ 24 + r * 2 ^ 16 + g * 2 ^ 8 + b
  ∧ 0 <= Color r g b w < 2 ^ 32.
Proof.
  intros Hr Hg Hb Hw. rewrite Color_as_sum by done.
  unfold is_byte in *. split; [done|lia].
Qed.

Lemma Color_is_base_256_witness :
  Color 255 128 0 1 = 1 * 2 ^ 24 + 255 * 2 ^ 16 + 128 * 2 ^ 8 + 0.
Proof.
  refine (proj1 (Color_is_base_256 255 128 0 1 _ _ _ _)); unfold is_byte; lia.
Defined.

(** X2: on channel values in [0, 255] [Color] is injective: two packed
    colours are equal only if all four channels are. *)
Theorem Color_injective (r g b w r' g' b' w' : Z) :
  is_byte r -> is_byte g -> is_byte b -> is_byte w ->
  is_byte r' -> is_byte g' -> is_byte b' -> is_byte w' ->
  Color r g b w = Color r' g' b' w' ->
  r = r' ∧ g = g' ∧ b = b' ∧ w = w'.
Proof.
  intros Hr Hg Hb Hw Hr' Hg' Hb' Hw'.
  rewrite !Color_as_sum by done. unfold is_byte in *. lia.
Qed.

Lemma Color_injective_witness :
  Color 1 2 3 4 = Color 1 2 3 4 ∧ (1 = 1 ∧ 2 = 2 ∧ 3 = 3 ∧ 4 = 4).
Proof.
  split; [reflexivity|].
  apply (Color_injective 1 2 3 4 1 2 3 4); unfold is_byte; (lia || reflexivity).
Defined.

Lemma decode_is_bytes (c : Z) : byte_colour (decode c).
Proof.
  unfold byte_colour, decode, is_byte. simpl.
  change 255 with (Z.ones 8). rewrite !Z.land_ones by lia.
  pose proof (Z.mod_pos_bound (c ≫ 16) (2 ^ 8)).
  pose proof (Z.mod_pos_bound (c ≫ 8) (2 ^ 8)).
  pose proof (Z.mod_pos_bound c (2 ^ 8)).
  change (2 ^ 8) with 256 in *. change (Z.ones 8) with 255. lia.
Qed.

Lemma exec_byte_colours (e : event) (self : Adafruit_NeoPixel) :
  Forall byte_colour (_displayed self) ->
  Forall byte_colour (_displayed (after (exec e) self)).
Proof.
  intros Hinv.
  assert (Hdec : Forall byte_colour (decode <$> _buffer self)).
  { apply Forall_fmap, Forall_true. intros c. apply decode_is_bytes. }
  destruct e; step_cases; done.
Qed.

(** X3: whatever was stored in the buffer (any integers, negative ones
    too), every colour of the snapshot has its three channels in [0, 255]:
    this holds at construction and after every run of calls and viewer
    steps. *)
Theorem displayed_channels_are_bytes (num : Z) (evs : list event) :
  ∃ d, result getDisplayed (run evs (__init__ num)) = Ok d
       ∧ Forall byte_colour d.
Proof.
  eexists. split; [apply getDisplayed_result|].
  induction evs as [|e evs IH] using rev_ind.
  - simpl. apply Forall_replicate. unfold byte_colour, is_byte. simpl. lia.
  - rewrite run_snoc. by apply exec_byte_colours.
Qed.

(** X4: packing the decoded channels again gives the low 24 bits of the
    stored value, and so two stored values are published as the same
    colour exactly when they agree modulo [2 ^ 24]. *)
Theorem decode_keeps_low_24_bits (c c' : Z) :
  Color (Red (decode c)) (Green (decode c)) (Blue (decode c)) 0 = c `mod` 2 ^ 24
  ∧ (decode c = decode c' ↔ c `mod` 2 ^ 24 = c' `mod` 2 ^ 24).
Proof.
  assert (Hre : ∀ x, Color (Red (decode x)) (Green (decode x)) (Blue (decode x)) 0
                     = x `mod` 2 ^ 24).
  { intros x. destruct (decode_is_bytes x) as (Hr & Hg & Hb).
    rewrite Color_as_sum by done.
    unfold decode. simpl. change 255 with (Z.ones 8).
    rewrite !Z.land_ones, !Z.shiftr_div_pow2 by lia.
    change (2 ^ 24) with 16777216. change (2 ^ 16) with 65536.
    change (2 ^ 8) with 256.
    Z.div_mod_to_equations. lia. }
  split; [apply Hre|]. split.
  - intros Heq. rewrite <- !Hre. by rewrite Heq.
  - intros Heq. unfold decode. change 255 with (Z.ones 8).
    rewrite !Z.land_ones, !Z.shiftr_div_pow2 by lia.
    change (2 ^ 24) with 16777216 in Heq. change (2 ^ 16) with 65536.
    change (2 ^ 8) with 256.
    f_equal; Z.div_mod_to_equations; lia.
Qed.

(** ** Channel values that do not fit *)

Lemma overflow_lor (x k : Z) :
  is_byte x -> x + 256 * k = Z.lor (Z.shiftl k 8) x.
Proof.
  unfold is_byte. intros Hx.
  replace (x + 256 * k) with (k * 2 ^ 8 + x) by lia.
  rewrite <- lor_disjoint_add by lia.
  by rewrite <- Z.shiftl_mul_pow2 by lia.
Qed.

Lemma shiftl_overflow (x k n : Z) :
  is_byte x -> 0 <= n ->
  Z.shiftl (x + 256 * k) n = Z.lor (Z.shiftl k (8 + n)) (Z.shiftl x n).
Proof.
  intros Hx Hn. rewrite overflow_lor by done.
  rewrite Z.shiftl_lor. by rewrite Z.shiftl_shiftl by lia.
Qed.

Ltac lor_bits :=
  apply Z.bits_inj'; intros ? _; rewrite !Z.lor_spec;
  repeat match goal with
         | |- context [Z.testbit ?a ?m] => destruct (Z.testbit a m)
         end; done.

(** X5: a channel value outside [0, 255] is not rejected: what exceeds
    eight bits is or-ed into the next channel up (blue into green, green
    into red, red into white); [k] is any integer, so this covers negative
    channel values too. *)
Theorem channel_overflow (r g b w k : Z) :
  is_byte r -> is_byte g -> is_byte b ->
  Color r g (b + 256 * k) w = Color r (Z.lor g k) b w
  ∧ Color r (g + 256 * k) b w = Color (Z.lor r k) g b w
  ∧ Color (r + 256 * k) g b w = Color r g b (Z.lor w k).
Proof.
  intros Hr Hg Hb. unfold Color. split; [|split].
  - rewrite overflow_lor by done. rewrite Z.shiftl_lor. lor_bits.
  - rewrite shiftl_overflow by (done || lia).
    rewrite Z.shiftl_lor. change (8 + 8) with 16. lor_bits.
  - rewrite shiftl_overflow by (done || lia).
    rewrite Z.shiftl_lor. change (8 + 16) with 24. lor_bits.
Qed.

Lemma channel_overflow_witness : Color 0 256 0 0 = Color 1 0 0 0.
Proof.
  refine (proj1 (proj2 (channel_overflow 0 0 0 0 1 _ _ _))); unfold is_byte; lia.
Defined.

(** ** Reading back what was written *)

Lemma py_index_valid (len : nat) (n : Z) :
  - Z.of_nat len <= n < Z.of_nat len ->
  ∃ k, py_index len n = Some k ∧ (k < len)%nat.
Proof.
  intros Hn. destruct (decide (n < 0)).
  - rewrite py_index_neg by lia. eexists. split; [done|lia].
  - rewrite py_index_nonneg by lia. eexists. split; [done|lia].
Qed.

Lemma py_index_same_position (len : nat) (n m : Z) (k : nat) :
  py_index len n = Some k -> py_index len m = Some k ->
  m = n ∨ m = n + Z.of_nat len ∨ m = n - Z.of_nat len.
Proof.
  unfold py_index. intros Hn Hm.
  repeat case_bool_decide; simplify_eq; lia.
Qed.

Lemma py_getitem_fmap {A B : Type} (f : A -> B) (l : list A) (n : Z) :
  py_getitem (f <$> l) n
    = match py_getitem l n with Ok x => Ok (f x) | Raise e => Raise e end.
Proof.
  unfold py_getitem. rewrite length_fmap.
  destruct (py_index _ _) as [k|]; [|done].
  rewrite list_lookup_fmap. by destruct (l !! k).
Qed.

(** X6: for every index the list accepts ([-N <= n < N] with [N] the pixel
    count), [getPixelColor(n)] right after [setPixelColor(n, c)] returns
    [c], and reading any index that names another pixel returns what it
    returned before the write. *)
Theorem set_then_get (self : Adafruit_NeoPixel) (n c : Z) :
  let N := Z.of_nat (length (_buffer self)) in
  - N <= n < N ->
  result (getPixelColor n) (after (setPixelColor n c) self) = Ok c
  ∧ (∀ m, m ≠ n -> m ≠ n + N -> m ≠ n - N ->
          result (getPixelColor m) (after (setPixelColor n c) self)
            = result (getPixelColor m) self).
Proof.
  intros N Hn. subst N.
  destruct (py_index_valid _ _ Hn) as (k & Hk & Hlt).
  unfold result, after. rewrite setPixelColor_eq, Hk.
  setoid_rewrite getPixelColor_eq. unfold py_getitem. simpl.
  rewrite length_insert, Hk. split.
  - by rewrite list_lookup_insert_eq.
  - intros m Hm1 Hm2 Hm3.
    destruct (py_index (length (_buffer self)) m) as [j|] eqn:Hj; [|done].
    rewrite list_lookup_insert_ne; [done|].
    intros ->. destruct (py_index_same_position _ _ _ _ Hk Hj) as [?|[?|?]]; lia.
Qed.

Lemma set_then_get_witness :
  result (getPixelColor (-2)) (after (setPixelColor (-2) 99) (__init__ 3)) = Ok 99.
Proof.
  refine (proj1 (set_then_get (__init__ 3) (-2) 99 _)). simpl. lia.
Defined.

(** X7: at one index the last write wins, whatever the index (a rejected
    index leaves the strip alone both times), and writes at two indices
    that name different pixels can be swapped. *)
Theorem writes_overwrite_and_commute (self : Adafruit_NeoPixel) (n m c1 c2 : Z) :
  after (setPixelColor n c2) (after (setPixelColor n c1) self)
    = after (setPixelColor n c2) self
  ∧ (py_index (length (_buffer self)) n ≠ py_index (length (_buffer self)) m ->
     after (setPixelColor m c2) (after (setPixelColor n c1) self)
       = after (setPixelColor n c1) (after (setPixelColor m c2) self)).
Proof.
  unfold after. rewrite !setPixelColor_eq. split.
  - destruct (py_index (length (_buffer self)) n) as [k|] eqn:Hk; simpl;
      rewrite ?length_insert, ?Hk; simpl; [|done].
    by rewrite list_insert_insert_eq.
  - intros Hne.
    destruct (py_index (length (_buffer self)) n) as [k|] eqn:Hk;
      destruct (py_index (length (_buffer self)) m) as [j|] eqn:Hj; simpl;
      rewrite ?length_insert, ?Hk, ?Hj; simpl; try done.
    rewrite list_insert_insert_ne; [done|congruence].
Qed.

(** X8: [show()] publishes exactly what [getPixelColor] reads: at every
    index, valid or not, [getDisplayed()[j]] after a [show()] is the
    decoding of what [getPixelColor(j)] returned before it, and raises
    where that raised. *)
Theorem show_publishes_reads (self : Adafruit_NeoPixel) (j : Z) :
  result (displayed_item j) (after show self)
    = match result (getPixelColor j) self with
      | Ok x => Ok (decode x)
      | Raise e => Raise e
      end.
Proof.
  rewrite displayed_item_result, show_displayed.
  unfold result. rewrite getPixelColor_eq. simpl. apply py_getitem_fmap.
Qed.

Lemma writes_overwrite_and_commute_witness :
  after (setPixelColor 2 7) (after (setPixelColor 0 5) (__init__ 3))
    = after (setPixelColor 0 5) (after (setPixelColor 2 7) (__init__ 3)).
Proof.
  refine (proj2 (writes_overwrite_and_commute (__init__ 3) 0 2 5 7) _).
  vm_compute. discriminate.
Defined.

(** ** The caller and the viewer thread *)

Lemma exec_viewer_consistent (e : event) (self : Adafruit_NeoPixel) :
  viewer_consistent self -> viewer_consistent (after (exec e) self).
Proof.
  unfold viewer_consistent. intros Hinv sim.
  destruct e; step_cases; intros; simplify_eq/=; eauto.
  - unfold Simulation_update in *.
    repeat case_match; simplify_eq/=; eauto.
  - destruct (Hinv _ eq_refl) as [f Hf]; [done|]. rewrite Hf. by eexists.
Qed.

Lemma exec_keeps_sim (e : event) (self : Adafruit_NeoPixel) :
  is_Some (_sim self) -> is_Some (_sim (after (exec e) self)).
Proof. intros [sim Hs]. destruct e; step_cases; by eexists. Qed.

Lemma run_viewer_consistent (evs : list event) (self : Adafruit_NeoPixel) :
  viewer_consistent self -> viewer_consistent (run evs self).
Proof.
  intros Hinv. induction evs as [|e evs IH] using rev_ind; [done|].
  rewrite run_snoc. by apply exec_viewer_consistent.
Qed.

Lemma run_begun (evs : list event) (self : Adafruit_NeoPixel) :
  existsb is_begin evs = true -> is_Some (_sim (run evs self)).
Proof.
  induction evs as [|e evs IH] using rev_ind; [done|].
  rewrite existsb_app, run_snoc. simpl. rewrite orb_false_r.
  intros [Hb|Hb]%orb_prop.
  - by apply exec_keeps_sim, IH.
  - by destruct e.
Qed.

Lemma show_returns (self : Adafruit_NeoPixel) :
  is_Some (_sim self) -> viewer_consistent self -> result show self = Ok tt.
Proof.
  intros [sim Hs] Hinv. specialize (Hinv sim Hs).
  unfold_method. rewrite Hs. unfold Simulation_update.
  destruct (_initialized sim); simpl; [|done].
  destruct Hinv as [f Hf]; [done|]. by rewrite Hf.
Qed.

(** X9: once [begin()] has been called, [show()] returns normally: after
    any run from construction that contains a [begin()] call, whatever
    else the caller and the viewer thread did before or after it. *)
Theorem show_after_begin_returns (num : Z) (evs : list event) :
  existsb is_begin evs = true ->
  result show (run evs (__init__ num)) = Ok tt.
Proof.
  intros Hb. apply show_returns; [by apply run_begun|].
  apply run_viewer_consistent. intros sim Hs. simpl in Hs. done.
Qed.

Lemma show_after_begin_returns_witness :
  result show (run [SetPixelColor 0 255; Begin; Show; ViewerStarted; ViewerTick]
                   (__init__ 2)) = Ok tt.
Proof. apply show_after_begin_returns. reflexivity. Defined.






Lemma exec_starting (e : event) (self : Adafruit_NeoPixel) :
  caller_after_begin e = true -> viewer_starting self ->
  _sim (after (exec e) self) = _sim self.
Proof.
  intros He (sim & Hs & Hi).
  destruct e; try done; step_cases; rewrite ?Hs in *; simplify_eq/=; eauto.
  all: unfold Simulation_update in *; rewrite Hi in *; by simplify_eq/=.
Qed.

Lemma run_starting (evs : list event) (self : Adafruit_NeoPixel) :
  forallb caller_after_begin evs = true -> viewer_starting self ->
  _sim (run evs self) = _sim self.
Proof.
  intros Hc Hst. induction evs as [|e evs IH] using rev_ind; [done|].
  rewrite forallb_app in Hc. apply andb_prop in Hc as [Hc He].
  simpl in He. rewrite andb_true_r in He.
  rewrite run_snoc, exec_starting; [by apply IH|done|].
  unfold viewer_starting. by rewrite IH.
Qed.

(** X11: a [show()] that comes after [begin()] but before the viewer
    thread has finished its set-up requests no redraw: between those two
    points the caller's calls leave the viewer's state as it was, so when
    the viewer does start no redraw is pending (the frame draws the
    snapshot once itself when it is created). *)
Theorem show_before_viewer_started_requests_nothing
    (self : Adafruit_NeoPixel) (evs : list event) :
  viewer_starting self ->
  forallb caller_after_begin evs = true ->
  result show (run evs self) = Ok tt
  ∧ _sim (run evs self) = _sim self
  ∧ pending_update (run (evs ++ [ViewerStarted]) self) = Some false.
Proof.
  intros Hst Hc. pose proof (run_starting evs self Hc Hst) as Hsim.
  destruct Hst as (sim & Hs & Hi).
  split; [|split; [done|]].
  - unfold_method. rewrite Hsim, Hs. unfold Simulation_update. by rewrite Hi.
  - rewrite run_snoc. unfold pending_update. unfold_method.
    by rewrite Hsim, Hs.
Qed.

Lemma show_before_viewer_started_requests_nothing_witness :
  pending_update (run ([SetPixelColor 0 9; Show; Show] ++ [ViewerStarted])
                      (run [Begin] (__init__ 2))) = Some false.
Proof.
  refine (proj2 (proj2 (show_before_viewer_started_requests_nothing
            (run [Begin] (__init__ 2)) [SetPixelColor 0 9; Show; Show] _ _))).
  - by eexists.
  - reflexivity.
Defined.

(** ** The serpentine layout *)

Lemma Frame_cell_eq (width i : Z) :
  (width - 6) `div` 18 ≠ 0 ->
  Frame_cell width i =
    Done (if decide ((i `div` ((width - 6) `div` 18)) `mod` 2 = 1)
          then (width - 6) `div` 18 - i `mod` ((width - 6) `div` 18) - 1
          else i `mod` ((width - 6) `div` 18),
          i `div` ((width - 6) `div` 18)).
Proof.
  intros Hrs. unfold Frame_cell, py_floordiv, py_mod, _pad, _size.
  change (2 * 6 + 6) with 18.
  unfold mbind, attempt_bind, mret, attempt_ret.
  destruct (decide (18 = 0)); [lia|]. simpl.
  destruct (decide ((width - 6) `div` 18 = 0)); [done|]. simpl.
  destruct (decide ((width - 6) `div` 18 = 0)); [done|]. simpl.
  by destruct (decide (2 = 0)).
Qed.

Lemma Frame_cell_zero (width i : Z) :
  (width - 6) `div` 18 = 0 -> Frame_cell width i = Failed ZeroDivisionError.
Proof.
  intros Hrs. unfold Frame_cell, py_floordiv, py_mod, _pad, _size.
  change (2 * 6 + 6) with 18.
  unfold mbind, attempt_bind, mret, attempt_ret.
  destruct (decide (18 = 0)); [lia|]. simpl.
  by destruct (decide ((width - 6) `div` 18 = 0)).
Qed.

Lemma row_size_zero (width : Z) :
  (width - 6) `div` 18 = 0 ↔ 6 <= width < 24.
Proof. split; intros H; Z.div_mod_to_equations; lia. Qed.

Lemma row_size_pos (width : Z) :
  24 <= width -> 0 < (width - 6) `div` 18 ∧ 18 * ((width - 6) `div` 18) <= width - 6.
Proof. intros H. Z.div_mod_to_equations. lia. Qed.

(** X12: [center] divides by the number of cells in a row, which is 0
    exactly when the window is at least 6 and less than 24 pixels wide: the
    cell computation then raises ZeroDivisionError, for every pixel, and at
    every other width it returns. *)
Theorem Frame_cell_raises_iff (width i : Z) :
  (Frame_cell width i = Failed ZeroDivisionError ↔ 6 <= width < 24)
  ∧ (∀ e, Frame_cell width i ≠ Failed (FromList e))
  ∧ (6 <= width < 24 ∨ ∃ cell, Frame_cell width i = Done cell).
Proof.
  destruct (decide ((width - 6) `div` 18 = 0)) as [Hz|Hnz].
  - pose proof (proj1 (row_size_zero width) Hz).
    rewrite Frame_cell_zero by done.
    split; [done|]. split; [done|]. by left.
  - assert (¬ 6 <= width < 24) by (by rewrite <- row_size_zero).
    rewrite Frame_cell_eq by done.
    split; [done|]. split; [done|]. right. by eexists.
Qed.

Section Grid.
Variable rs : Z.
Hypothesis rs_pos : 0 < rs.

Lemma serpentine_injective (i j : Z) :
  i `div` rs = j `div` rs ->
  (if decide ((i `div` rs) `mod` 2 = 1) then rs - i `mod` rs - 1 else i `mod` rs)
    = (if decide ((j `div` rs) `mod` 2 = 1) then rs - j `mod` rs - 1 else j `mod` rs) ->
  i = j.
Proof.
  intros Hrow Hcol. rewrite <- Hrow in Hcol.
  assert (i `mod` rs = j `mod` rs) by (case_decide; lia).
  rewrite (Z.div_mod i rs), (Z.div_mod j rs) by lia. congruence.
Qed.

Lemma next_in_row (i : Z) :
  i `mod` rs < rs - 1 ->
  (i + 1) `div` rs = i `div` rs ∧ (i + 1) `mod` rs = i `mod` rs + 1.
Proof.
  intros Hlt. pose proof (Z.mod_pos_bound i rs rs_pos).
  pose proof (Z.div_mod i rs ltac:(lia)) as Hi.
  assert (Hq : (i + 1) `div` rs = i `div` rs).
  { symmetry. apply (Z.div_unique_pos _ _ _ (i `mod` rs + 1)); lia. }
  split; [done|].
  symmetry. apply (Z.mod_unique_pos _ _ (i `div` rs)); lia.
Qed.

Lemma next_row (i : Z) :
  i `mod` rs = rs - 1 ->
  (i + 1) `div` rs = i `div` rs + 1 ∧ (i + 1) `mod` rs = 0.
Proof.
  intros Hlt.
  pose proof (Z.div_mod i rs ltac:(lia)) as Hi.
  assert (Hq : (i + 1) `div` rs = i `div` rs + 1).
  { symmetry. apply (Z.div_unique_pos _ _ _ 0); lia. }
  split; [done|].
  symmetry. apply (Z.mod_unique_pos _ _ (i `div` rs + 1)); lia.
Qed.

Lemma parity_succ (q : Z) : (q + 1) `mod` 2 = 1 ↔ q `mod` 2 ≠ 1.
Proof. split; intros H; Z.div_mod_to_equations; lia. Qed.
End Grid.

(** X13: in a window at least 24 wide every pixel [i >= 0] gets a cell:
    its column is within the row, its row is [i] divided by the row size,
    and a marker of radius [_size] at the cell's horizontal position lies
    within the window's width with [_pad] to spare on both sides (before
    the jitter is added). *)
Theorem Frame_cell_in_window (width i : Z) :
  24 <= width -> 0 <= i ->
  ∃ col row,
    Frame_cell width i = Done (col, row)
    ∧ 0 <= col < (width - _pad) `div` (2 * _size + _pad)
    ∧ row = i `div` ((width - _pad) `div` (2 * _size + _pad))
    ∧ 0 <= row
    ∧ _pad <= (_pad + _size) + (_pad + _size + _size) * col - _size
    ∧ (_pad + _size) + (_pad + _size + _size) * col + _size <= width - _pad.
Proof.
  intros Hw Hi. unfold _pad, _size. change (2 * 6 + 6) with 18.
  destruct (row_size_pos width Hw) as [Hpos Hfit].
  rewrite Frame_cell_eq by lia.
  set (rs := (width - 6) `div` 18) in *.
  pose proof (Z.mod_pos_bound i rs Hpos) as Hcol.
  assert (0 <= i `div` rs) by (apply Z.div_pos; lia).
  eexists _, _. split; [done|].
  case_decide; repeat split; lia.
Qed.

Lemma Frame_cell_in_window_witness :
  ∃ col row, Frame_cell 400 25 = Done (col, row) ∧ 0 <= col < 21 ∧ row = 1.
Proof.
  destruct (Frame_cell_in_window 400 25) as (col & row & H1 & H2 & H3 & _);
    [lia|lia|].
  exists col, row. split; [exact H1|]. split; [exact H2|exact H3].
Defined.

(** X14: in a window at least 24 wide no two pixels share a cell. *)
Theorem Frame_cell_injective (width i j : Z) :
  24 <= width -> Frame_cell width i = Frame_cell width j -> i = j.
Proof.
  intros Hw. destruct (row_size_pos width Hw) as [Hpos _].
  rewrite !Frame_cell_eq by lia. intros Heq.
  apply (serpentine_injective ((width - 6) `div` 18) Hpos); congruence.
Qed.

Lemma Frame_cell_injective_witness : Frame_cell 400 3 = Frame_cell 400 3 ∧ 3 = 3.
Proof.
  split; [reflexivity|].
  apply (Frame_cell_injective 400 3 3); [lia|reflexivity].
Defined.

(** X15: the layout is a serpentine: in a window at least 24 wide, pixel
    [i + 1] is either in the same row as pixel [i], one column to the left
    or right, or directly below it in the next row.  The connecting lines
    [redraw] draws therefore never cross a row. *)
Theorem Frame_cell_serpentine (width i : Z) :
  24 <= width ->
  ∃ c1 r1 c2 r2,
    Frame_cell width i = Done (c1, r1)
    ∧ Frame_cell width (i + 1) = Done (c2, r2)
    ∧ ((r2 = r1 ∧ Z.abs (c2 - c1) = 1) ∨ (r2 = r1 + 1 ∧ c2 = c1)).
Proof.
  intros Hw. destruct (row_size_pos width Hw) as [Hpos _].
  rewrite !Frame_cell_eq by lia.
  set (rs := (width - 6) `div` 18) in *.
  eexists _, _, _, _. split; [done|]. split; [done|].
  pose proof (Z.mod_pos_bound i rs Hpos) as Hcol.
  destruct (decide (i `mod` rs < rs - 1)) as [Hin|Hend].
  - destruct (next_in_row rs Hpos i Hin) as [-> ->]. left.
    split; [done|]. case_decide; lia.
  - destruct (next_row rs Hpos i ltac:(lia)) as [-> ->]. right.
    split; [done|].
    pose proof (parity_succ (i `div` rs)).
    repeat case_decide; try lia; tauto.
Qed.

Lemma Frame_cell_serpentine_witness :
  ∃ c1 r1 c2 r2,
    Frame_cell 400 20 = Done (c1, r1) ∧ Frame_cell 400 21 = Done (c2, r2)
    ∧ ((r2 = r1 ∧ Z.abs (c2 - c1) = 1) ∨ (r2 = r1 + 1 ∧ c2 = c1)).
Proof. apply (Frame_cell_serpentine 400 20). lia. Defined.

(** ** Redrawing *)

Section Redraw.
Context {F : Type} `{!Float F}.

Lemma Frame_center_narrow (g : Geometry F) (i : Z) :
  6 <= _width g < 24 -> Frame_center g i = Failed ZeroDivisionError.
Proof.
  intros Hw. unfold Frame_center.
  by rewrite Frame_cell_zero by (by apply row_size_zero).
Qed.






Lemma Frame_redraw_unfold (g : Geometry F) (strip : Adafruit_NeoPixel)
    (log : list (draw_cmd F)) :
  Frame_redraw g strip log =
    match
      for_each (seqZ 1 (Z.of_nat (length (_displayed strip)) - 1)) (λ i,
        p1 ← attempting (Frame_center g (i - 1));
        p2 ← attempting (Frame_center g i);
        emit (DrawLine p1.1 p1.2 p2.1 p2.2))
        (log ++ [SetBackground (wx_Colour 255 255 255); Clear])
    with
    | (Done _, log') =>
        for_each (imap (λ i c, (Z.of_nat i, c)) (_displayed strip)) (λ ic,
          emit (SetBrush ic.2);;
          p ← attempting (Frame_center g ic.1);
          emit (DrawCircle p.1 p.2 _size)) log'
    | (Failed e, log') => (Failed e, log')
    end.
Proof.
  unfold Frame_redraw. rewrite getDisplayed_result. simpl.
  unfold mbind at 1 2 3 4. unfold Draw_bind, attempting, emit. simpl.
  by rewrite <- app_assoc.
Qed.


(** X17: an empty strip is redrawn without error at any width, the widths
    at which [center] would raise included: only the background is
    drawn. *)
Theorem Frame_redraw_empty (g : Geometry F) (strip : Adafruit_NeoPixel) :
  result numPixels strip = Ok 0 ->
  length (_displayed strip) = length (_buffer strip) ->
  Frame_redraw g strip [] = (Done tt, [SetBackground (wx_Colour 255 255 255); Clear]).
Proof.
  rewrite numPixels_result. intros Hn Hlen.
  assert (Hd : _displayed strip = []).
  { apply length_zero_iff_nil. rewrite Hlen. simplify_eq. lia. }
  rewrite Frame_redraw_unfold, Hd. done.
Qed.

(** X18: in a window at least 6 and less than 24 wide, redrawing a strip
    that has pixels raises ZeroDivisionError at the first call of [center];
    by then the background is drawn and, when there is exactly one pixel,
    its brush is set, and no line or circle has been drawn. *)
Theorem Frame_redraw_narrow_window (g : Geometry F) (strip : Adafruit_NeoPixel) :
  6 <= _width g < 24 ->
  _displayed strip ≠ [] ->
  Frame_redraw g strip []
    = (Failed ZeroDivisionError,
       [SetBackground (wx_Colour 255 255 255); Clear]
         ++ match _displayed strip with
            | [c] => [SetBrush c]
            | _ => []
            end).
Proof.
  intros Hw Hne. rewrite Frame_redraw_unfold.
  destruct (_displayed strip) as [|c [|c' d]]; [done| |].
  - simpl. unfold mbind, Draw_bind, attempting, emit. simpl.
    by rewrite Frame_center_narrow.
  - rewrite seqZ_cons by (simpl; lia). simpl.
    unfold mbind, Draw_bind, attempting, emit. simpl.
    by rewrite Frame_center_narrow.
Qed.

(** X19: the viewer never sees a write that was not published: whatever
    [setPixelColor] and [setPixelColorRGB] calls were made since, [redraw]
    draws what it drew before them. *)
Theorem Frame_redraw_ignores_unpublished_writes
    (g : Geometry F) (strip : Adafruit_NeoPixel) (evs : list event) :
  forallb is_write evs = true ->
  Frame_redraw g (run evs strip) = Frame_redraw g strip.
Proof.
  intros Hw. unfold Frame_redraw.
  by rewrite !getDisplayed_result, run_writes_displayed.
Qed.
End Redraw.


Lemma Frame_redraw_empty_witness :
  Frame_redraw (Float0 := integer_jitter)
      (Frame_resize 10 200 (Frame_geometry_init [] [])) (__init__ 0) []
    = (Done tt, [SetBackground (wx_Colour 255 255 255); Clear]).
Proof. apply Frame_redraw_empty; reflexivity. Defined.

Lemma Frame_redraw_narrow_window_witness :
  Frame_redraw (Float0 := integer_jitter)
      (Frame_resize 20 200 (Frame_geometry_init [0; 1] [1; 0])) (__init__ 2) []
    = (Failed ZeroDivisionError, [SetBackground (wx_Colour 255 255 255); Clear]).
Proof.
  apply (Frame_redraw_narrow_window (Float0 := integer_jitter)
           (Frame_resize 20 200 (Frame_geometry_init [0; 1] [1; 0])) (__init__ 2));
    [simpl; lia|discriminate].
Defined.

Lemma Frame_redraw_ignores_unpublished_writes_witness :
  Frame_redraw (Float0 := integer_jitter) (Frame_geometry_init [0; 1] [1; 0])
      (run [SetPixelColor 0 255; SetPixelColorRGB 1 1 2 3 0] (__init__ 2))
    = Frame_redraw (Float0 := integer_jitter) (Frame_geometry_init [0; 1] [1; 0])
        (__init__ 2).
Proof. apply Frame_redraw_ignores_unpublished_writes. reflexivity. Defined.

(** ** A strip without pixels *)

(** X20: a count of zero or less is accepted by the constructor and gives
    a strip without pixels: [numPixels()] is 0, the snapshot is empty, and
    every [getPixelColor] and [setPixelColor], at any index, raises
    IndexError. *)
Theorem init_without_pixels (num n c : Z) :
  num <= 0 ->
  result numPixels (__init__ num) = Ok 0
  ∧ result getDisplayed (__init__ num) = Ok []
  ∧ result (getPixelColor n) (__init__ num) = Raise IndexError
  ∧ result (setPixelColor n c) (__init__ num) = Raise IndexError.
Proof.
  intros Hn.
  assert (He : __init__ num = __init__ 0).
  { unfold __init__, py_repeat. by replace (Z.to_nat num) with 0%nat by lia. }
  rewrite He. unfold result.
  rewrite getPixelColor_eq, setPixelColor_eq. unfold py_getitem. simpl.
  rewrite py_index_out by (simpl; lia). done.
Qed.

Lemma init_without_pixels_witness :
  result (setPixelColor (-1) 255) (__init__ (-3)) = Raise IndexError.
Proof.
  refine (proj2 (proj2 (proj2 (init_without_pixels (-3) (-1) 255 _)))). lia.
Defined.
